(** * withings-sync: the orchestration loop of [sync.py]

    A shallow embedding of [withings_sync/sync.py].  Python floats are IEEE 754
    binary64 values (Rocq's primitive floats), [None] is [option]'s [None], a
    Python exception is the [Raise] outcome of a small writer/error monad, and
    every call that leaves [sync] (the FIT encoder, logging, standard output,
    TrainerRoad, Garmin Connect, the Withings account) is recorded as an event
    of the run, in program order. *)

From Stdlib Require Import ZArith List Bool String Lia.
From Stdlib Require Import PrimFloat FloatOps SpecFloat.
Import ListNotations.

Open Scope Z_scope.
Set Warnings "-inexact-float".

(* ================================================================== *)
(** * Python values *)

Module Py.

(** The exceptions the arithmetic of [sync] can raise. *)
Inductive exn : Type :=
| ZeroDivisionError
| OverflowError.

(** [bool(x)] for a float: false exactly for [0.0] and [-0.0]
    (a NaN is truthy). *)
Definition truthy (x : float) : bool := negb (x =? 0)%float.

(** [bool(x)] for an optional float: [None] is falsy. *)
Definition truthy_opt (x : option float) : bool :=
  match x with
  | None => false
  | Some v => truthy v
  end.

(** [bool(s)] for an optional string: [None] and [''] are falsy. *)
Definition truthy_str (s : option string) : bool :=
  match s with
  | None => false
  | Some EmptyString => false
  | Some _ => true
  end.

(** [a / b] for floats: [ZeroDivisionError] when [b == 0.0], the IEEE
    quotient otherwise (no overflow check is made by float division). *)
Definition truediv (a b : float) : exn + float :=
  if (b =? 0)%float then inl ZeroDivisionError else inr (a / b)%float.

(** [pow(h, 2)] for a float [h]: [OverflowError] when [h] is finite and
    the square is not; a NaN or an infinity goes through, and an underflow
    to zero is silent.  The platform's [pow] is taken as correctly rounded
    at exponent 2. *)
Definition pow2 (h : float) : exn + float :=
  let sq := (h * h)%float in
  if is_finite h && is_infinity sq then inl OverflowError else inr sq.

(** Nearest integer to [n / d] for [0 <= n], [0 < d], ties to even. *)
Definition div_half_even (n d : Z) : Z :=
  let q := n / d in
  let r := n mod d in
  match 2 * r ?= d with
  | Lt => q
  | Gt => q + 1
  | Eq => if Z.even q then q else q + 1
  end.

(** The number of tenths nearest to [m * 2^e], ties to even. *)
Definition tenths (m : positive) (e : Z) : Z :=
  if 0 <=? e then 10 * Zpos m * 2 ^ e
  else div_half_even (10 * Zpos m) (2 ^ (- e)).

(** [round(x, 1)]: the float nearest to the decimal obtained by rounding
    the exact value of [x] to one decimal place, ties to even; NaN,
    infinities and zeros round to themselves. *)
Definition round1 (x : float) : float :=
  match Prim2SF x with
  | S754_finite s m e =>
      match tenths m e with
      | Zpos t =>
          SF2Prim (SFdiv prec emax (S754_finite s t 0) (S754_finite false 10 0))
      | _ => SF2Prim (S754_zero s)
      end
  | _ => x
  end.

End Py.

(* ================================================================== *)
(** * Measurement groups and the collaborators of [sync] *)

(** A measurement group, through the getters [sync] calls on it.
    [get_datetime] is kept as the group's epoch second: the loop only
    compares two of them. *)
Record Group : Type := {
  get_datetime : Z;
  get_weight : option float;
  get_fat_ratio : option float;
  get_muscle_mass : option float;
  get_hydration : option float;
  get_bone_mass : option float;
  get_raw_data : list string
}.

(** The calls [sync] makes on its [FitEncoder_Weight] instance. *)
Inductive fit_call : Type :=
| write_file_info
| write_file_creator
| write_device_info (timestamp : Z)
| write_weight_scale (timestamp : Z) (weight : float)
    (percent_fat percent_hydration bone_mass muscle_mass bmi : option float)
| finish
| getvalue.

Inductive level : Type := DEBUG | INFO | ERROR.

(** The log lines of [sync], with the values they are formatted from. *)
Inductive message : Type :=
| Fetching (startdate enddate : Z)
| NoMeasurements
| GeneratingFit
| NoWeightData
| DetectedData
| DataEntry (dataentry : string)
| RecordLine (dt : Z) (weight : float)
    (fat_ratio muscle_mass hydration bone_mass bmi : option float)
| InvalidWeight
| TrainerroadSet
| LastWeight (last_weight : float)
| Measured (last_dt : option Z)
| CurrentTrainerRoadWeight (w : float)
| UpdatingTrainerRoadWeight (last_weight : float)
| TrainerRoadDone
| NoTrainerroad
| AttemptingUpload
| Uploaded
| NoGarmin.

(** Everything a run of [sync] does to the outside, in program order. *)
Inductive event : Type :=
| BasicConfig (debug : bool)
| NewWithingsAccount (user : option string)
| GetLastSync
| GetHeight
| GetMeasurements (startdate enddate : Z)
| Log (l : level) (m : message)
| NewFitEncoder
| Fit (c : fit_call)
| StdoutWrite
| NewTrainerRoad (username password : option string)
| TrainerRoadConnect
| TrainerRoadSetWeight (w : float)
| TrainerRoadDisconnect
| NewGarminConnect
| GarminLogin (username password : option string)
| GarminUpload
| SetLastSync.

(** The parameters of [sync].  [fromdate] and [todate] are held as the
    integer [time.mktime] gives for them; [fromdate] is [None] when the
    caller gave no start date. *)
Record Args : Type := {
  withings_user : option string;
  garmin_username : option string;
  garmin_password : option string;
  trainerroad_username : option string;
  trainerroad_password : option string;
  fromdate : option Z;
  todate : Z;
  no_upload : bool;
  verbose : bool
}.

(** What the collaborators answer during one run. *)
Record World : Type := {
  getLastSync : Z;
  getHeight : option float;
  getMeasurements : Z -> Z -> option (list Group);
  trainerroad_weight : float;
  upload_file : bool
}.

(* ================================================================== *)
(** * Runs: a trace of events and an outcome *)

Definition M (A : Type) : Type := (list event * (Py.exn + A))%type.

Definition ret {A : Type} (a : A) : M A := ([], inr a).

Definition bind {A B : Type} (m : M A) (f : A -> M B) : M B :=
  match m with
  | (t, inl e) => (t, inl e)
  | (t, inr a) => let (t', r) := f a in (t ++ t', r)
  end.

Definition emit (e : event) : M unit := ([e], inr tt).

Definition lift {A : Type} (r : Py.exn + A) : M A := ([], r).

Declare Scope run_scope.
Delimit Scope run_scope with run.
Notation "x <- c1 ;; c2" := (bind c1 (fun x => c2))
  (at level 61, c1 at next level, right associativity) : run_scope.
Notation "c1 ;; c2" := (bind c1 (fun _ => c2))
  (at level 61, right associativity) : run_scope.
Open Scope run_scope.

Definition trace {A : Type} (m : M A) : list event := fst m.
Definition outcome {A : Type} (m : M A) : Py.exn + A := snd m.

(** [for x in xs: body x] for a body that only has effects. *)
Fixpoint for_each {A : Type} (xs : list A) (body : A -> M unit) : M unit :=
  match xs with
  | [] => ret tt
  | x :: rest => body x ;; for_each rest body
  end.

(* ================================================================== *)
(** * The loop of [sync] over the measurement groups *)

(** [last_dt] and [last_weight]. *)
Definition loop_state : Type := (option Z * option float)%type.

(** Lines 133-136: [round(weight / pow(height, 2), 1)] under
    [if height and weight]. *)
Definition bmi_of (height : option float) (weight : float) : M (option float) :=
  match height with
  | Some h =>
      if Py.truthy h && Py.truthy weight then
        sq <- lift (Py.pow2 h) ;;
        q <- lift (Py.truediv weight sq) ;;
        ret (Some (Py.round1 q))
      else ret None
  | None => ret None
  end.

(** Lines 138-141: [hydration * 100.0 / weight] under
    [if hydration and weight]. *)
Definition percent_hydration_of (hydration : option float) (weight : float)
  : M (option float) :=
  match hydration with
  | Some hy =>
      if Py.truthy hy && Py.truthy weight then
        q <- lift (Py.truediv (hy * 100)%float weight) ;;
        ret (Some q)
      else ret None
  | None => ret None
  end.

(** Lines 162-164: [if last_dt is None or dt > last_dt]. *)
Definition update_last (st : loop_state) (dt : Z) (weight : float) : loop_state :=
  match fst st with
  | None => (Some dt, Some weight)
  | Some last_dt => if last_dt <? dt then (Some dt, Some weight) else st
  end.

(** One iteration of the [for group in groups] loop (lines 116-164). *)
Definition loop_body (height : option float) (st : loop_state) (group : Group)
  : M loop_state :=
  let dt := get_datetime group in
  let fat_ratio := get_fat_ratio group in
  let muscle_mass := get_muscle_mass group in
  let hydration := get_hydration group in
  let bone_mass := get_bone_mass group in
  let raw_data := get_raw_data group in
  match get_weight group with
  | None =>
      emit (Log INFO NoWeightData) ;;
      emit (Log DEBUG DetectedData) ;;
      for_each raw_data (fun dataentry => emit (Log DEBUG (DataEntry dataentry))) ;;
      ret st
  | Some weight =>
      bmi <- bmi_of height weight ;;
      percent_hydration <- percent_hydration_of hydration weight ;;
      emit (Fit (write_device_info dt)) ;;
      emit (Fit (write_weight_scale dt weight fat_ratio percent_hydration
                   bone_mass muscle_mass bmi)) ;;
      emit (Log DEBUG (RecordLine dt weight fat_ratio muscle_mass hydration
                         bone_mass bmi)) ;;
      ret (update_last st dt weight)
  end.

Fixpoint for_groups (height : option float) (groups : list Group) (st : loop_state)
  : M loop_state :=
  match groups with
  | [] => ret st
  | group :: rest =>
      st' <- loop_body height st group ;;
      for_groups height rest st'
  end.

(** Lines 107-166: the FIT file is generated. *)
Definition generate_fit (height : option float) (groups : list Group) : M loop_state :=
  emit (Log DEBUG GeneratingFit) ;;
  emit NewFitEncoder ;;
  emit (Fit write_file_info) ;;
  emit (Fit write_file_creator) ;;
  st <- for_groups height groups (None, None) ;;
  emit (Fit finish) ;;
  ret st.

(* ================================================================== *)
(** * [sync] *)

(** Lines 90-93. *)
Definition get_startdate (a : Args) (w : World) : M Z :=
  match fromdate a with
  | None => emit GetLastSync ;; ret (getLastSync w)
  | Some d => ret d
  end.

(** Lines 176-194. *)
Definition upload_trainerroad (a : Args) (w : World) (st : loop_state)
  (last_weight : float) : M unit :=
  if Py.truthy_str (trainerroad_username a) then
    emit (Log INFO TrainerroadSet) ;;
    emit (Log INFO (LastWeight last_weight)) ;;
    emit (Log INFO (Measured (fst st))) ;;
    emit (NewTrainerRoad (trainerroad_username a) (trainerroad_password a)) ;;
    emit TrainerRoadConnect ;;
    emit (Log INFO (CurrentTrainerRoadWeight (trainerroad_weight w))) ;;
    emit (Log INFO (UpdatingTrainerRoadWeight last_weight)) ;;
    emit (TrainerRoadSetWeight (Py.round1 last_weight)) ;;
    emit TrainerRoadDisconnect ;;
    emit (Log INFO TrainerRoadDone)
  else
    emit (Log INFO NoTrainerroad).

(** Lines 196-209. *)
Definition upload_garmin (a : Args) (w : World) : M unit :=
  if Py.truthy_str (garmin_username a) then
    emit NewGarminConnect ;;
    emit (GarminLogin (garmin_username a) (garmin_password a)) ;;
    emit (Log DEBUG AttemptingUpload) ;;
    emit (Fit getvalue) ;;
    emit GarminUpload ;;
    if upload_file w then
      match fromdate a with
      | None => emit SetLastSync
      | Some _ => ret tt
      end ;;
      emit (Log INFO Uploaded)
    else ret tt
  else
    emit (Log INFO NoGarmin).

(** Lines 102-209: what [sync] does with the height and the groups it
    fetched; the result is [Some (-1)], [Some 0] or Python's [None]. *)
Definition deliver (a : Args) (w : World) (height : option float)
  (groups : option (list Group)) : M (option Z) :=
  match groups with
  | None | Some [] =>
      emit (Log ERROR NoMeasurements) ;;
      ret (Some (-1))
  | Some groups =>
      st <- generate_fit height groups ;;
      match snd st with
      | None =>
          emit (Log ERROR InvalidWeight) ;;
          ret (Some (-1))
      | Some last_weight =>
          if no_upload a then
            emit (Fit getvalue) ;;
            emit StdoutWrite ;;
            ret (Some 0)
          else
            upload_trainerroad a w st last_weight ;;
            upload_garmin a w ;;
            ret None
      end
  end.

(** [sync] (lines 73-209). *)
Definition sync (a : Args) (w : World) : M (option Z) :=
  emit (BasicConfig (verbose a)) ;;
  emit (NewWithingsAccount
          (if Py.truthy_str (withings_user a) then withings_user a else None)) ;;
  startdate <- get_startdate a w ;;
  let enddate := todate a + 86399 in
  emit (Log INFO (Fetching startdate enddate)) ;;
  emit GetHeight ;;
  let height := getHeight w in
  emit (GetMeasurements startdate enddate) ;;
  let groups := getMeasurements w startdate enddate in
  deliver a w height groups.

(** The events of lines 80-100. *)
Definition fetching (a : Args) (w : World) : list event :=
  let startdate := match fromdate a with None => getLastSync w | Some d => d end in
  [ BasicConfig (verbose a);
    NewWithingsAccount
      (if Py.truthy_str (withings_user a) then withings_user a else None) ]
  ++ match fromdate a with None => [GetLastSync] | Some _ => [] end
  ++ [ Log INFO (Fetching startdate (todate a + 86399));
       GetHeight;
       GetMeasurements startdate (todate a + 86399) ].

(** The groups a run fetches. *)
Definition fetched (a : Args) (w : World) : option (list Group) :=
  getMeasurements w
    (match fromdate a with None => getLastSync w | Some d => d end)
    (todate a + 86399).

(* ================================================================== *)
(** * Observations on runs *)

(** The encoder calls of a trace, in order. *)
Definition fit_calls (t : list event) : list fit_call :=
  flat_map (fun e => match e with Fit c => [c] | _ => [] end) t.

(** A group that carries a weight. *)
Definition weight_bearing (g : Group) : bool :=
  match get_weight g with
  | Some _ => true
  | None => false
  end.

(** A stream without a single weight-bearing group. *)
Definition weightless_stream (groups : option (list Group)) : Prop :=
  match groups with
  | None => True
  | Some gs => forall g, In g gs -> get_weight g = None
  end.

(** Events that read the encoder's buffer out or hand a file on. *)
Definition delivers_file (e : event) : bool :=
  match e with
  | Fit getvalue | StdoutWrite | GarminUpload => true
  | _ => false
  end.

(** A height whose square [pow] can give and [/] can divide by: the BMI
    of lines 133-136 is then computed without an exception. *)
Definition height_in_range (height : option float) : bool :=
  match height with
  | None => true
  | Some h =>
      negb (Py.truthy h)
      || match Py.pow2 h with
         | inl _ => false
         | inr sq => Py.truthy sq
         end
  end.

(** The value of [bmi] after lines 133-136, when nothing is raised. *)
Definition bmi_value (height : option float) (weight : float) : option float :=
  if Py.truthy_opt height && Py.truthy weight then
    match height with
    | Some h => Some (Py.round1 (weight / (h * h))%float)
    | None => None
    end
  else None.

(** The value of [percent_hydration] after lines 138-141. *)
Definition percent_hydration_value (hydration : option float) (weight : float)
  : option float :=
  if Py.truthy_opt hydration && Py.truthy weight then
    match hydration with
    | Some hy => Some (hy * 100 / weight)%float
    | None => None
    end
  else None.

(** What the loop logs for a group without a weight. *)
Definition weightless_log (g : Group) : list event :=
  Log INFO NoWeightData :: Log DEBUG DetectedData
  :: map (fun dataentry => Log DEBUG (DataEntry dataentry)) (get_raw_data g).

(** The two encoder calls of a weight-bearing group. *)
Definition record_calls (height : option float) (g : Group) : list fit_call :=
  match get_weight g with
  | None => []
  | Some weight =>
      [ write_device_info (get_datetime g);
        write_weight_scale (get_datetime g) weight (get_fat_ratio g)
          (percent_hydration_value (get_hydration g) weight)
          (get_bone_mass g) (get_muscle_mass g) (bmi_value height weight) ]
  end.

(** The timestamps [write_device_info] is called with. *)
Definition device_info_timestamps (cs : list fit_call) : list Z :=
  flat_map (fun c => match c with write_device_info ts => [ts] | _ => [] end) cs.

(** Every [getvalue] of the trace is followed at once by the write to
    standard output or by the upload. *)
Fixpoint read_for_output (t : list event) : bool :=
  match t with
  | [] => true
  | Fit getvalue :: rest =>
      match rest with
      | StdoutWrite :: _ | GarminUpload :: _ => read_for_output rest
      | _ => false
      end
  | _ :: rest => read_for_output rest
  end.

(** The call of [withings.setLastSync]. *)
Definition is_SetLastSync (e : event) : bool :=
  match e with
  | SetLastSync => true
  | _ => false
  end.

(** [g] is the first group of [groups] with the greatest timestamp. *)
Definition first_greatest (g : Group) (groups : list Group) : Prop :=
  exists before after,
    groups = before ++ g :: after
    /\ (forall x, In x before -> get_datetime x < get_datetime g)
    /\ (forall x, In x after -> get_datetime x <= get_datetime g).

(** A group with a timestamp, a weight and a hydration mass only. *)
Definition mk_group (dt : Z) (weight hydration : option float) : Group :=
  {| get_datetime := dt; get_weight := weight; get_fat_ratio := None;
     get_muscle_mass := None; get_hydration := hydration;
     get_bone_mass := None; get_raw_data := [] |}.

(* ================================================================== *)
(** * The encoder, as far as the specification describes it *)

Module FitEncoder.

(** Modelled from the spec: the class [FitEncoder_Weight] of
    [withings_sync/fit.py] is not among the sources.  Section 4.3 gives it
    the states [Empty], [Building] and [Finalized]: [write_file_info] is the
    first content, the other writes and [finish] follow it, anything but
    [getvalue] after [finish] and [getvalue] before it is an invalid-state
    error; writing the device information again is accepted. *)
Inductive state : Type := Empty | Building | Finalized.

Inductive error : Type := StateError.

Definition step (s : state) (c : fit_call) : error + state :=
  match s, c with
  | Empty, write_file_info => inr Building
  | Building, write_file_creator => inr Building
  | Building, write_device_info _ => inr Building
  | Building, write_weight_scale _ _ _ _ _ _ _ => inr Building
  | Building, finish => inr Finalized
  | Finalized, getvalue => inr Finalized
  | _, _ => inl StateError
  end.

Fixpoint run (s : state) (cs : list fit_call) : error + state :=
  match cs with
  | [] => inr s
  | c :: rest =>
      match step s c with
      | inl e => inl e
      | inr s' => run s' rest
      end
  end.

End FitEncoder.

(* ================================================================== *)
(** * The loop and the hand-over, as lists of events *)

(** The events of one iteration, when nothing is raised. *)
Definition group_events (height : option float) (g : Group) : list event :=
  match get_weight g with
  | None => weightless_log g
  | Some weight =>
      map Fit (record_calls height g)
      ++ [Log DEBUG (RecordLine (get_datetime g) weight (get_fat_ratio g)
                       (get_muscle_mass g) (get_hydration g) (get_bone_mass g)
                       (bmi_value height weight))]
  end.

(** [last_dt] and [last_weight] after one iteration. *)
Definition group_state (st : loop_state) (g : Group) : loop_state :=
  match get_weight g with
  | None => st
  | Some weight => update_last st (get_datetime g) weight
  end.

(** What follows the generation of the file (lines 168-209). *)
Definition handing_over (a : Args) (w : World) (st : loop_state) : list event :=
  match snd st with
  | None => [Log ERROR InvalidWeight]
  | Some last_weight =>
      if no_upload a then [Fit getvalue; StdoutWrite]
      else trace (upload_trainerroad a w st last_weight)
           ++ trace (upload_garmin a w)
  end.

(** [st] holds the timestamp and the weight of the first group of [seen]
    with the greatest timestamp. *)
Definition holds_first_greatest (st : loop_state) (seen : list Group) : Prop :=
  exists g weight,
    st = (Some (get_datetime g), Some weight)
    /\ get_weight g = Some weight
    /\ first_greatest g seen.

(** The events of the loop: log lines and the two record calls. *)
Definition loop_event (e : event) : bool :=
  match e with
  | Log _ _ => true
  | Fit (write_device_info _) => true
  | Fit (write_weight_scale _ _ _ _ _ _ _) => true
  | _ => false
  end.

(** The groups of a fetched stream, none for [None]. *)
Definition groups_of (s : option (list Group)) : list Group :=
  match s with
  | Some gs => gs
  | None => []
  end.

(* ================================================================== *)
(** * Further observations on runs *)

(** A group whose weight is neither [None] nor zero: the BMI is computed
    for it when the height is truthy. *)
Definition nonzero_weight (g : Group) : bool :=
  match get_weight g with
  | Some weight => Py.truthy weight
  | None => false
  end.


(** No iteration of the loop raises: the BMI can be computed from the
    height, or no group has a weight that is neither [None] nor zero. *)
Definition loop_completes (height : option float) (groups : list Group) : bool :=
  height_in_range height || negb (existsb nonzero_weight groups).

(** Encoder calls after the two file-level ones: pairs of a
    [write_device_info] and a [write_weight_scale] with the same timestamp,
    then nothing (the run was aborted), or [finish], or [finish] and one
    [getvalue]. *)
Fixpoint records_then_end (cs : list fit_call) : bool :=
  match cs with
  | [] => true
  | write_device_info t :: write_weight_scale t' _ _ _ _ _ _ :: rest =>
      (t =? t') && records_then_end rest
  | finish :: [] => true
  | finish :: getvalue :: [] => true
  | _ => false
  end.

(** The encoder is not used at all, or [write_file_info] and
    [write_file_creator] come first. *)
Definition well_sequenced (cs : list fit_call) : bool :=
  match cs with
  | [] => true
  | write_file_info :: write_file_creator :: rest => records_then_end rest
  | _ => false
  end.


(** Calls on Garmin Connect. *)
Definition garmin_event (e : event) : bool :=
  match e with
  | NewGarminConnect | GarminLogin _ _ | GarminUpload => true
  | _ => false
  end.






(** The events of the loop, with the log lines it writes. *)
Definition loop_record (e : event) : bool :=
  match e with
  | Log INFO NoWeightData => true
  | Log DEBUG DetectedData => true
  | Log DEBUG (DataEntry _) => true
  | Log DEBUG (RecordLine _ _ _ _ _ _ _) => true
  | Fit (write_device_info _) => true
  | Fit (write_weight_scale _ _ _ _ _ _ _) => true
  | _ => false
  end.

(** What tells that an upload succeeded: the write of the bookmark and the
    log line 'Fit file uploaded to Garmin Connect'. *)
Definition reports_upload (e : event) : bool :=
  match e with
  | SetLastSync | Log INFO Uploaded => true
  | _ => false
  end.

(** The encoder calls that build the file: all but the read-out. *)
Definition builds_file (c : fit_call) : bool :=
  match c with
  | getvalue => false
  | _ => true
  end.

(** The same collaborators, with another answer of [garmin.upload_file]. *)
Definition with_upload_file (w : World) (r : bool) : World :=
  {| getLastSync := getLastSync w;
     getHeight := getHeight w;
     getMeasurements := getMeasurements w;
     trainerroad_weight := trainerroad_weight w;
     upload_file := r |}.

(* ================================================================== *)
(** * The arithmetic on examples *)

Example round1_bmi : Py.round1 (70 / (1.75 * 1.75))%float = 22.9%float.
Proof. reflexivity. Qed.

Example round1_ties_to_even : Py.round1 0.25%float = 0.2%float.
Proof. reflexivity. Qed.

Example round1_exact_value : Py.round1 2.675%float = 2.7%float.
Proof. reflexivity. Qed.

Example round1_negative_zero : Py.round1 (-0.04)%float = (-0)%float.
Proof. reflexivity. Qed.

Example pow2_overflows : Py.pow2 1e200%float = inl Py.OverflowError.
Proof. reflexivity. Qed.

Example pow2_underflows : Py.pow2 1e-200%float = inr 0%float.
Proof. reflexivity. Qed.

Example bmi_raises_on_tiny_height :
  bmi_of (Some 1e-200%float) 70 = ([], inl Py.ZeroDivisionError).
Proof. reflexivity. Qed.

(* ================================================================== *)
(** * Runs: equations *)

Section Runs.

Context {A B C : Type}.

Lemma bind_returns (m : M A) (f : A -> M B) (t : list event) (a : A) :
  m = (t, inr a) -> bind m f = (t ++ trace (f a), outcome (f a)).
Proof.
  intros ->. unfold bind, trace, outcome. now destruct (f a).
Qed.

Lemma bind_raises (m : M A) (f : A -> M B) (t : list event) (e : Py.exn) :
  m = (t, inl e) -> bind m f = (t, inl e).
Proof. now intros ->. Qed.

Lemma bind_assoc (m : M A) (f : A -> M B) (g : B -> M C) :
  bind (bind m f) g = bind m (fun a => bind (f a) g).
Proof.
  destruct m as [t [e | a]]; simpl; [reflexivity |].
  destruct (f a) as [t1 [e1 | b]]; simpl; [reflexivity |].
  destruct (g b) as [t2 r2]. now rewrite app_assoc.
Qed.

Lemma run_eta (m : M A) : m = (trace m, outcome m).
Proof. now destruct m. Qed.

End Runs.

Lemma for_each_emit {A : Type} (f : A -> event) (xs : list A) :
  for_each xs (fun x => emit (f x)) = (map f xs, inr tt).
Proof.
  induction xs as [| x xs IH]; simpl; [reflexivity |].
  now rewrite IH.
Qed.

Lemma fit_calls_app (t1 t2 : list event) :
  fit_calls (t1 ++ t2) = fit_calls t1 ++ fit_calls t2.
Proof. unfold fit_calls. now rewrite flat_map_app. Qed.

Lemma fit_calls_weightless_log (g : Group) : fit_calls (weightless_log g) = [].
Proof.
  unfold weightless_log. simpl.
  induction (get_raw_data g) as [| d ds IH]; simpl; auto.
Qed.

(* ================================================================== *)
(** * The loop: equations *)

Lemma truediv_truthy (a b : float) :
  Py.truthy b = true -> Py.truediv a b = inr (a / b)%float.
Proof.
  unfold Py.truthy, Py.truediv. now destruct (b =? 0)%float.
Qed.

Lemma pow2_value (h sq : float) : Py.pow2 h = inr sq -> sq = (h * h)%float.
Proof.
  unfold Py.pow2.
  destruct (is_finite h && is_infinity (h * h)); congruence.
Qed.

Lemma percent_hydration_of_value (hydration : option float) (weight : float) :
  percent_hydration_of hydration weight
  = ret (percent_hydration_value hydration weight).
Proof.
  unfold percent_hydration_of, percent_hydration_value.
  destruct hydration as [hy |]; simpl; [| reflexivity].
  destruct (Py.truthy hy); simpl; [| reflexivity].
  destruct (Py.truthy weight) eqn:Hw; simpl; [| reflexivity].
  now rewrite (truediv_truthy _ _ Hw).
Qed.

Lemma bmi_of_value (height : option float) (weight : float) :
  height_in_range height = true ->
  bmi_of height weight = ret (bmi_value height weight).
Proof.
  unfold bmi_of, bmi_value, height_in_range.
  destruct height as [h |]; simpl; [| reflexivity].
  destruct (Py.truthy h); simpl; [| reflexivity].
  destruct (Py.truthy weight); simpl; [| reflexivity].
  destruct (Py.pow2 h) as [e | sq] eqn:Hp; [discriminate |].
  intros Hsq. simpl. rewrite (truediv_truthy _ _ Hsq). simpl.
  now rewrite (pow2_value _ _ Hp).
Qed.

Lemma bmi_of_silent (height : option float) (weight : float) :
  trace (bmi_of height weight) = [].
Proof.
  unfold bmi_of. destruct height as [h |]; [| reflexivity].
  destruct (Py.truthy h && Py.truthy weight); [| reflexivity].
  destruct (Py.pow2 h) as [e | sq]; [reflexivity |]. simpl.
  now destruct (Py.truediv weight sq).
Qed.

Lemma bmi_of_zero_weight (height : option float) (weight : float) :
  Py.truthy weight = false -> bmi_of height weight = ret None.
Proof.
  intros Hw. unfold bmi_of. destruct height as [h |]; [| reflexivity].
  now rewrite Hw, andb_false_r.
Qed.

Lemma loop_body_weightless (height : option float) (st : loop_state) (g : Group) :
  get_weight g = None ->
  loop_body height st g = (weightless_log g, inr st).
Proof.
  intros Hw. unfold loop_body. rewrite Hw.
  rewrite (bind_returns _ _ [Log INFO NoWeightData] tt eq_refl).
  rewrite (bind_returns _ _ [Log DEBUG DetectedData] tt eq_refl).
  rewrite for_each_emit. simpl. unfold weightless_log.
  now rewrite app_nil_r.
Qed.

Lemma loop_body_in_range (height : option float) (st : loop_state) (g : Group) :
  height_in_range height = true ->
  loop_body height st g = (group_events height g, inr (group_state st g)).
Proof.
  intros Hh. unfold group_events, group_state, record_calls.
  destruct (get_weight g) as [weight |] eqn:Hw.
  - unfold loop_body. rewrite Hw, (bmi_of_value _ _ Hh),
      percent_hydration_of_value.
    reflexivity.
  - now apply loop_body_weightless.
Qed.

Lemma for_groups_in_range (height : option float) (groups : list Group) :
  height_in_range height = true ->
  forall st,
    for_groups height groups st
    = (flat_map (group_events height) groups, inr (fold_left group_state groups st)).
Proof.
  intros Hh. induction groups as [| g gs IH]; intros st; simpl; [reflexivity |].
  rewrite (loop_body_in_range _ _ _ Hh). simpl. now rewrite IH.
Qed.

Lemma for_groups_app (height : option float) (l1 l2 : list Group) :
  forall st,
    for_groups height (l1 ++ l2) st
    = bind (for_groups height l1 st) (fun st' => for_groups height l2 st').
Proof.
  induction l1 as [| g gs IH]; intros st; simpl.
  - now destruct (for_groups height l2 st) as [t r].
  - rewrite bind_assoc.
    destruct (loop_body height st g) as [t [e | st']]; simpl; [reflexivity |].
    now rewrite IH.
Qed.

Lemma fit_calls_group_events (height : option float) (g : Group) :
  fit_calls (group_events height g) = record_calls height g.
Proof.
  unfold group_events, record_calls.
  destruct (get_weight g); [reflexivity | apply fit_calls_weightless_log].
Qed.

Lemma fit_calls_loop (height : option float) (groups : list Group) :
  fit_calls (flat_map (group_events height) groups)
  = flat_map (record_calls height) groups.
Proof.
  induction groups as [| g gs IH]; simpl; [reflexivity |].
  now rewrite fit_calls_app, fit_calls_group_events, IH.
Qed.

Section BindProjections.

Context {A B : Type}.

Lemma trace_bind (m : M A) (f : A -> M B) :
  trace (bind m f)
  = trace m ++ match outcome m with
               | inr a => trace (f a)
               | inl _ => []
               end.
Proof.
  destruct m as [t [e | a]]; simpl; [now rewrite app_nil_r |].
  now destruct (f a).
Qed.

Lemma outcome_bind (m : M A) (f : A -> M B) :
  outcome (bind m f)
  = match outcome m with
    | inr a => outcome (f a)
    | inl e => inl e
    end.
Proof.
  destruct m as [t [e | a]]; simpl; [reflexivity |].
  now destruct (f a).
Qed.

End BindProjections.

Lemma percent_hydration_of_silent (hydration : option float) (weight : float) :
  trace (percent_hydration_of hydration weight) = [].
Proof. now rewrite percent_hydration_of_value. Qed.

(** One iteration on a weight-bearing group, once the BMI is computed. *)
Lemma loop_body_weight (height : option float) (st : loop_state) (g : Group)
  (weight : float) (bmi : option float) :
  get_weight g = Some weight ->
  outcome (bmi_of height weight) = inr bmi ->
  loop_body height st g
  = ([ Fit (write_device_info (get_datetime g));
       Fit (write_weight_scale (get_datetime g) weight (get_fat_ratio g)
              (percent_hydration_value (get_hydration g) weight)
              (get_bone_mass g) (get_muscle_mass g) bmi);
       Log DEBUG (RecordLine (get_datetime g) weight (get_fat_ratio g)
                    (get_muscle_mass g) (get_hydration g) (get_bone_mass g) bmi) ],
     inr (update_last st (get_datetime g) weight)).
Proof.
  intros Hw Hb. unfold loop_body. rewrite Hw.
  assert (Hrun : bmi_of height weight = ([], inr bmi)).
  { rewrite (run_eta (bmi_of height weight)), bmi_of_silent. now rewrite Hb. }
  rewrite Hrun, percent_hydration_of_value. reflexivity.
Qed.

(** An iteration whose BMI computation raises emits nothing. *)
Lemma loop_body_raises (height : option float) (st : loop_state) (g : Group)
  (weight : float) (e : Py.exn) :
  get_weight g = Some weight ->
  outcome (bmi_of height weight) = inl e ->
  loop_body height st g = ([], inl e).
Proof.
  intros Hw Hb. unfold loop_body. rewrite Hw.
  assert (Hrun : bmi_of height weight = ([], inl e)).
  { rewrite (run_eta (bmi_of height weight)), bmi_of_silent. now rewrite Hb. }
  now rewrite Hrun.
Qed.

(* ================================================================== *)
(** * Hydration percentage and BMI (lines 133-141) *)

(** C9.  The division [hydration * 100.0 / weight] never divides by zero:
    [percent_hydration_of] raises nothing whatever its operands, its result
    is [None] as soon as the weight is falsy, in particular for the weights
    [0.0] and [-0.0] at which the division itself would raise, and a group
    whose weight is [None] leaves the iteration before the division. *)
Theorem hydration_division_never_by_zero :
  forall (hydration : option float) (weight : float),
    percent_hydration_of hydration weight
    = ret (if Py.truthy weight then percent_hydration_value hydration weight
           else None)
    /\ percent_hydration_of hydration 0 = ret None
    /\ percent_hydration_of hydration (-0) = ret None
    /\ Py.truediv (35 * 100) 0 = inl Py.ZeroDivisionError
    /\ forall height st dt fat muscle bone raw,
        let g := Build_Group dt None fat muscle hydration bone raw in
        loop_body height st g = (weightless_log g, inr st).
Proof.
  intros hydration weight. repeat split.
  - rewrite percent_hydration_of_value. unfold percent_hydration_value.
    destruct (Py.truthy weight); [reflexivity |].
    now rewrite andb_false_r.
  - rewrite percent_hydration_of_value. unfold percent_hydration_value.
    replace (Py.truthy 0) with false by reflexivity. now rewrite andb_false_r.
  - rewrite percent_hydration_of_value. unfold percent_hydration_value.
    replace (Py.truthy (-0)) with false by reflexivity. now rewrite andb_false_r.
  - intros. now apply loop_body_weightless.
Qed.

(** C5, as the claim has it, fails: a hydration mass of [0.0] with a weight
    of [70.0] is passed on as [None], not as [0.0 * 100 / 70.0]. *)
Lemma percent_hydration_zero_mass_dropped :
  let g := mk_group 100 (Some 70%float) (Some 0%float) in
  get_hydration g = Some 0%float
  /\ get_weight g = Some 70%float
  /\ fit_calls (trace (loop_body None (None, None) g))
     = [ write_device_info 100;
         write_weight_scale 100 70 None None None None None ]
  /\ Some (0 * 100 / 70)%float <> (None : option float).
Proof. repeat split. discriminate. Qed.

(** C5, amended.  The hydration percentage is [hydration * 100.0 / weight]
    when the hydration mass is neither [None] nor zero and the weight is not
    zero, and [None] otherwise; nothing is raised, and this is the value the
    iteration passes to [write_weight_scale]. *)
Theorem percent_hydration_passed :
  forall (hydration : option float) (weight : float),
    (forall hy, hydration = Some hy ->
                Py.truthy hy = true -> Py.truthy weight = true ->
                percent_hydration_of hydration weight
                = ret (Some (hy * 100 / weight)%float))
    /\ (Py.truthy_opt hydration = false \/ Py.truthy weight = false ->
        percent_hydration_of hydration weight = ret None)
    /\ (forall height st g bmi ph,
          get_weight g = Some weight -> get_hydration g = hydration ->
          outcome (bmi_of height weight) = inr bmi ->
          outcome (percent_hydration_of hydration weight) = inr ph ->
          fit_calls (trace (loop_body height st g))
          = [ write_device_info (get_datetime g);
              write_weight_scale (get_datetime g) weight (get_fat_ratio g) ph
                (get_bone_mass g) (get_muscle_mass g) bmi ]).
Proof.
  intros hydration weight. repeat split.
  - intros hy -> Hhy Hw. rewrite percent_hydration_of_value.
    unfold percent_hydration_value. simpl. now rewrite Hhy, Hw.
  - intros H. rewrite percent_hydration_of_value.
    unfold percent_hydration_value.
    destruct H as [H | H]; rewrite H; [reflexivity | now rewrite andb_false_r].
  - intros height st g bmi ph Hw Hh Hb Hp.
    rewrite (loop_body_weight _ _ _ _ _ Hw Hb). simpl.
    rewrite percent_hydration_of_value in Hp. simpl in Hp.
    rewrite Hh. congruence.
Qed.

Lemma percent_hydration_passed_witness :
  percent_hydration_of (Some 35%float) 70 = ret (Some 50%float)
  /\ percent_hydration_of None 70 = ret None.
Proof.
  split.
  - apply (proj1 (percent_hydration_passed (Some 35%float) 70%float) 35%float);
      reflexivity.
  - apply (proj1 (proj2 (percent_hydration_passed None 70%float))).
    left. reflexivity.
Defined.




(* ================================================================== *)
(** * Groups without a weight (lines 126-131) *)

(** C3.  A group whose weight is [None] is logged, makes no encoder call
    and leaves [last_dt] and [last_weight] as they were; the loop goes on
    with the groups after it: with or without the group, the encoder
    receives the same calls and the loop ends the same way. *)
Theorem weightless_group_skipped :
  forall (height : option float) (before after : list Group) (g : Group)
         (st : loop_state),
    get_weight g = None ->
    fit_calls (trace (loop_body height st g)) = []
    /\ In (Log INFO NoWeightData) (trace (loop_body height st g))
    /\ outcome (loop_body height st g) = inr st
    /\ fit_calls (trace (for_groups height (before ++ g :: after) st))
       = fit_calls (trace (for_groups height (before ++ after) st))
    /\ outcome (for_groups height (before ++ g :: after) st)
       = outcome (for_groups height (before ++ after) st).
Proof.
  intros height before after g st Hw.
  rewrite (loop_body_weightless _ _ _ Hw).
  split; [apply fit_calls_weightless_log |].
  split; [now left |].
  split; [reflexivity |].
  rewrite !for_groups_app, !trace_bind, !outcome_bind.
  destruct (outcome (for_groups height before st)) as [e | st']; [now split |].
  simpl for_groups. rewrite (loop_body_weightless _ _ _ Hw).
  rewrite trace_bind, outcome_bind. unfold trace, outcome. cbn [fst snd].
  now rewrite !fit_calls_app, fit_calls_weightless_log.
Qed.

Lemma weightless_group_skipped_witness :
  fit_calls (trace (for_groups (Some 1.75%float)
                      [mk_group 100 (Some 70%float) None;
                       mk_group 150 None None;
                       mk_group 200 (Some 71%float) None] (None, None)))
  = fit_calls (trace (for_groups (Some 1.75%float)
                        [mk_group 100 (Some 70%float) None;
                         mk_group 200 (Some 71%float) None] (None, None))).
Proof.
  apply (weightless_group_skipped (Some 1.75%float)
           [mk_group 100 (Some 70%float) None]
           [mk_group 200 (Some 71%float) None]
           (mk_group 150 None None) (None, None)).
  reflexivity.
Defined.

(* ================================================================== *)
(** * Streams without a weight (lines 103-105 and 166-171) *)

Lemma for_groups_weightless (height : option float) (groups : list Group) :
  (forall g, In g groups -> get_weight g = None) ->
  forall st,
    for_groups height groups st = (flat_map weightless_log groups, inr st).
Proof.
  induction groups as [| g gs IH]; intros Hall st; simpl; [reflexivity |].
  rewrite (loop_body_weightless _ _ _ (Hall g (or_introl eq_refl))). simpl.
  rewrite IH; [reflexivity |]. intros x Hx. apply Hall. now right.
Qed.

Lemma weightless_logs_deliver_nothing (groups : list Group) :
  forallb (fun e => negb (delivers_file e)) (flat_map weightless_log groups) = true.
Proof.
  induction groups as [| g gs IH]; simpl; [reflexivity |].
  rewrite forallb_app, IH, andb_true_r.
  induction (get_raw_data g) as [| d ds IHd]; simpl; auto.
Qed.

Lemma sync_run (a : Args) (w : World) :
  sync a w
  = (fetching a w ++ trace (deliver a w (getHeight w) (fetched a w)),
     outcome (deliver a w (getHeight w) (fetched a w))).
Proof.
  unfold sync, get_startdate, fetching, fetched.
  destruct (fromdate a) as [d |];
    cbv beta iota zeta delta [bind emit ret];
    destruct (deliver a w (getHeight w) _) as [t r]; reflexivity.
Qed.

Lemma fetching_delivers_nothing (a : Args) (w : World) :
  forallb (fun e => negb (delivers_file e)) (fetching a w) = true.
Proof. unfold fetching. now destruct (fromdate a). Qed.

Lemma generate_fit_run (height : option float) (groups : list Group) :
  generate_fit height groups
  = ([Log DEBUG GeneratingFit; NewFitEncoder; Fit write_file_info;
      Fit write_file_creator]
     ++ trace (for_groups height groups (None, None))
     ++ match outcome (for_groups height groups (None, None)) with
        | inr _ => [Fit finish]
        | inl _ => []
        end,
     outcome (for_groups height groups (None, None))).
Proof.
  unfold generate_fit.
  destruct (for_groups height groups (None, None)) as [t [e | st]]; simpl;
    now rewrite ?app_nil_r.
Qed.

Lemma upload_trainerroad_run (a : Args) (w : World) (st : loop_state)
  (last_weight : float) :
  upload_trainerroad a w st last_weight
  = (if Py.truthy_str (trainerroad_username a) then
       [ Log INFO TrainerroadSet;
         Log INFO (LastWeight last_weight);
         Log INFO (Measured (fst st));
         NewTrainerRoad (trainerroad_username a) (trainerroad_password a);
         TrainerRoadConnect;
         Log INFO (CurrentTrainerRoadWeight (trainerroad_weight w));
         Log INFO (UpdatingTrainerRoadWeight last_weight);
         TrainerRoadSetWeight (Py.round1 last_weight);
         TrainerRoadDisconnect;
         Log INFO TrainerRoadDone ]
     else [Log INFO NoTrainerroad],
     inr tt).
Proof.
  unfold upload_trainerroad.
  now destruct (Py.truthy_str (trainerroad_username a)).
Qed.

Lemma upload_garmin_run (a : Args) (w : World) :
  upload_garmin a w
  = (if Py.truthy_str (garmin_username a) then
       [ NewGarminConnect;
         GarminLogin (garmin_username a) (garmin_password a);
         Log DEBUG AttemptingUpload;
         Fit getvalue;
         GarminUpload ]
       ++ (if upload_file w then
             match fromdate a with
             | None => [SetLastSync]
             | Some _ => []
             end ++ [Log INFO Uploaded]
           else [])
     else [Log INFO NoGarmin],
     inr tt).
Proof.
  unfold upload_garmin.
  destruct (Py.truthy_str (garmin_username a)); [| reflexivity].
  destruct (upload_file w); [| reflexivity].
  now destruct (fromdate a).
Qed.

Lemma deliver_run (a : Args) (w : World) (height : option float)
  (g : Group) (gs : list Group) :
  deliver a w height (Some (g :: gs))
  = (trace (generate_fit height (g :: gs))
     ++ match outcome (generate_fit height (g :: gs)) with
        | inl _ => []
        | inr st => handing_over a w st
        end,
     match outcome (generate_fit height (g :: gs)) with
     | inl e => inl e
     | inr st =>
         match snd st with
         | None => inr (Some (-1))
         | Some _ => if no_upload a then inr (Some 0) else inr None
         end
     end).
Proof.
  unfold deliver, handing_over.
  destruct (generate_fit height (g :: gs)) as [t [e | st]];
    unfold trace, outcome; cbn [fst snd bind]; [now rewrite app_nil_r |].
  destruct (snd st) as [last_weight |]; [| reflexivity].
  destruct (no_upload a); [reflexivity |].
  rewrite upload_trainerroad_run, upload_garmin_run. cbn [fst snd bind ret].
  now rewrite app_nil_r.
Qed.

Lemma sync_trace (a : Args) (w : World) :
  trace (sync a w)
  = fetching a w
    ++ match fetched a w with
       | Some (g :: gs) =>
           [Log DEBUG GeneratingFit; NewFitEncoder; Fit write_file_info;
            Fit write_file_creator]
           ++ trace (for_groups (getHeight w) (g :: gs) (None, None))
           ++ match outcome (for_groups (getHeight w) (g :: gs) (None, None)) with
              | inl _ => []
              | inr st => Fit finish :: handing_over a w st
              end
       | _ => [Log ERROR NoMeasurements]
       end.
Proof.
  rewrite sync_run. unfold trace at 1. cbn [fst]. f_equal.
  destruct (fetched a w) as [[| g gs] |]; [reflexivity | | reflexivity].
  rewrite deliver_run, generate_fit_run.
  destruct (outcome (for_groups (getHeight w) (g :: gs) (None, None)))
    as [e | st]; unfold trace at 1 2, outcome; cbn [fst snd].
  - now rewrite !app_nil_r.
  - now rewrite <- !app_assoc.
Qed.

(** C1.  When the fetched stream has no weight-bearing group (it is [None],
    empty, or every group's weight is [None]), [sync] returns [-1] and its
    run neither reads the encoder's buffer out ([getvalue]), nor writes it to
    standard output, nor uploads it. *)
Theorem empty_stream_rejected :
  forall (a : Args) (w : World),
    weightless_stream (fetched a w) ->
    outcome (sync a w) = inr (Some (-1))
    /\ forallb (fun e => negb (delivers_file e)) (trace (sync a w)) = true.
Proof.
  intros a w Hs. rewrite sync_run. unfold trace, outcome. cbn [fst snd].
  rewrite forallb_app, fetching_delivers_nothing. cbn [andb].
  unfold deliver. destruct (fetched a w) as [[| g gs] |]; [now split | | now split].
  rewrite generate_fit_run, (for_groups_weightless _ _ Hs).
  unfold trace, outcome. cbn [fst snd bind emit ret app].
  split; [reflexivity |]. cbn [forallb delivers_file negb andb].
  now rewrite !forallb_app, (weightless_logs_deliver_nothing (g :: gs)).
Qed.

Lemma empty_stream_rejected_witness :
  let a := {| withings_user := None; garmin_username := Some "g"%string;
              garmin_password := None; trainerroad_username := None;
              trainerroad_password := None; fromdate := None; todate := 0;
              no_upload := false; verbose := false |} in
  let w := {| getLastSync := 0; getHeight := Some 1.75%float;
              getMeasurements := fun _ _ => Some [mk_group 100 None None];
              trainerroad_weight := 70; upload_file := true |} in
  outcome (sync a w) = inr (Some (-1))
  /\ forallb (fun e => negb (delivers_file e)) (trace (sync a w)) = true.
Proof.
  cbv zeta. apply empty_stream_rejected.
  simpl. intros g [<- | []]. reflexivity.
Defined.

(* ================================================================== *)
(** * The last weight (lines 113-114 and 162-164) *)

Lemma holds_first_greatest_start (x : Group) (weight : float) :
  get_weight x = Some weight ->
  holds_first_greatest (group_state (None, None) x) [x].
Proof.
  intros Hw. exists x, weight. unfold group_state. rewrite Hw.
  repeat split. exists [], []. repeat split; intros y [].
Qed.

Lemma holds_first_greatest_step (st : loop_state) (seen : list Group) (x : Group)
  (weight : float) :
  get_weight x = Some weight ->
  holds_first_greatest st seen ->
  holds_first_greatest (group_state st x) (seen ++ [x]).
Proof.
  intros Hw (g & wg & -> & Hg & before & after & -> & Hb & Ha).
  unfold group_state, update_last. rewrite Hw. simpl.
  destruct (get_datetime g <? get_datetime x) eqn:Hlt.
  - apply Z.ltb_lt in Hlt. exists x, weight. repeat split; [assumption |].
    exists (before ++ g :: after), []. repeat split.
    + intros y Hy. apply in_app_or in Hy as [Hy | [<- | Hy]].
      * specialize (Hb y Hy). lia.
      * assumption.
      * specialize (Ha y Hy). lia.
    + intros y [].
  - apply Z.ltb_ge in Hlt. exists g, wg. repeat split; [assumption |].
    exists before, (after ++ [x]). repeat split.
    + now rewrite <- app_assoc.
    + assumption.
    + intros y Hy. apply in_app_or in Hy as [Hy | [<- | []]]; auto.
Qed.

Lemma fold_holds_first_greatest (groups : list Group) :
  (forall g, In g groups -> get_weight g <> None) ->
  forall st seen,
    holds_first_greatest st seen ->
    holds_first_greatest (fold_left group_state groups st) (seen ++ groups).
Proof.
  induction groups as [| x xs IH]; intros Hall st seen Hst; simpl.
  - now rewrite app_nil_r.
  - destruct (get_weight x) as [weight |] eqn:Hw;
      [| now destruct (Hall x (or_introl eq_refl))].
    replace (seen ++ x :: xs) with ((seen ++ [x]) ++ xs)
      by now rewrite <- app_assoc.
    apply IH.
    + intros g Hg. apply Hall. now right.
    + now apply holds_first_greatest_step with (weight := weight).
Qed.

(** C2.  For a non-empty sequence of weight-bearing groups, the loop ends
    with [last_dt] and [last_weight] those of the first group, in input
    order, whose timestamp is the greatest: every group before it has a
    strictly smaller timestamp, none after it a greater one.  For the
    groups [(100, 70)], [(200, 71)], [(150, 72)] they are [200] and [71],
    and [71] is the weight [sync] sets in TrainerRoad. *)
Theorem last_weight_first_greatest :
  (forall (height : option float) (groups : list Group),
      groups <> [] ->
      (forall g, In g groups -> get_weight g <> None) ->
      height_in_range height = true ->
      exists g weight,
        outcome (for_groups height groups (None, None))
        = inr (Some (get_datetime g), Some weight)
        /\ get_weight g = Some weight
        /\ first_greatest g groups)
  /\ (forall height,
        height_in_range height = true ->
        forall a w,
          fetched a w = Some [ mk_group 100 (Some 70%float) None;
                               mk_group 200 (Some 71%float) None;
                               mk_group 150 (Some 72%float) None ] ->
          getHeight w = height ->
          no_upload a = false ->
          Py.truthy_str (trainerroad_username a) = true ->
          In (TrainerRoadSetWeight 71) (trace (sync a w))
          /\ In (Log INFO (Measured (Some 200))) (trace (sync a w))).
Proof.
  split.
  - intros height groups Hne Hall Hh.
    rewrite (for_groups_in_range _ _ Hh). unfold outcome. cbn [snd].
    destruct groups as [| x xs]; [congruence |]. cbn [fold_left].
    destruct (get_weight x) as [wx |] eqn:Hx;
      [| now destruct (Hall x (or_introl eq_refl))].
    destruct (fold_holds_first_greatest xs
                (fun g Hg => Hall g (or_intror Hg)) _ [x]
                (holds_first_greatest_start x wx Hx))
      as (g & weight & Hst & Hg & Hfirst).
    exists g, weight. rewrite Hst. now repeat split.
  - intros height Hh a w Hf <- Hno Htr.
    rewrite sync_run, Hf, deliver_run, generate_fit_run,
      (for_groups_in_range _ _ Hh).
    unfold trace at 1 2 5, outcome. cbn [fst snd fold_left].
    unfold handing_over.
    replace (snd (group_state (group_state (group_state (None, None)
      (mk_group 100 (Some 70%float) None)) (mk_group 200 (Some 71%float) None))
      (mk_group 150 (Some 72%float) None))) with (Some 71%float) by reflexivity.
    rewrite Hno, upload_trainerroad_run, Htr. unfold trace. cbn [fst].
    split; apply in_or_app; right; apply in_or_app; right;
      apply in_or_app; left; simpl; tauto.
Qed.

Lemma last_weight_first_greatest_witness :
  (exists g weight,
      outcome (for_groups (Some 1.75%float)
                 [ mk_group 100 (Some 70%float) None;
                   mk_group 200 (Some 71%float) None;
                   mk_group 150 (Some 72%float) None ] (None, None))
      = inr (Some (get_datetime g), Some weight)
      /\ get_weight g = Some weight
      /\ first_greatest g [ mk_group 100 (Some 70%float) None;
                            mk_group 200 (Some 71%float) None;
                            mk_group 150 (Some 72%float) None ])
  /\ In (TrainerRoadSetWeight 71)
       (trace (sync
                 {| withings_user := None; garmin_username := None;
                    garmin_password := None;
                    trainerroad_username := Some "t"%string;
                    trainerroad_password := None; fromdate := None;
                    todate := 0; no_upload := false; verbose := false |}
                 {| getLastSync := 0; getHeight := Some 1.75%float;
                    getMeasurements := fun _ _ =>
                      Some [ mk_group 100 (Some 70%float) None;
                             mk_group 200 (Some 71%float) None;
                             mk_group 150 (Some 72%float) None ];
                    trainerroad_weight := 70; upload_file := true |})).
Proof.
  split.
  - apply (proj1 last_weight_first_greatest).
    + discriminate.
    + intros g [<- | [<- | [<- | []]]]; discriminate.
    + reflexivity.
  - apply (proj2 last_weight_first_greatest (Some 1.75%float)); reflexivity.
Defined.

(* ================================================================== *)
(** * The order of the encoder calls (lines 109-174 and 201) *)

Lemma weightless_log_loop_events (g : Group) :
  forallb loop_event (weightless_log g) = true.
Proof.
  unfold weightless_log. simpl.
  induction (get_raw_data g) as [| d ds IH]; simpl; auto.
Qed.

Lemma loop_body_loop_events (height : option float) (st : loop_state) (g : Group) :
  forallb loop_event (trace (loop_body height st g)) = true.
Proof.
  destruct (get_weight g) as [weight |] eqn:Hw.
  - destruct (outcome (bmi_of height weight)) as [e | bmi] eqn:Hb.
    + now rewrite (loop_body_raises _ _ _ _ _ Hw Hb).
    + now rewrite (loop_body_weight _ _ _ _ _ Hw Hb).
  - rewrite (loop_body_weightless _ _ _ Hw). apply weightless_log_loop_events.
Qed.

Lemma for_groups_loop_events (height : option float) (groups : list Group) :
  forall st, forallb loop_event (trace (for_groups height groups st)) = true.
Proof.
  induction groups as [| g gs IH]; intros st; simpl; [reflexivity |].
  rewrite trace_bind, forallb_app, loop_body_loop_events.
  destruct (outcome (loop_body height st g)); [reflexivity | apply IH].
Qed.


Lemma fit_calls_fetching (a : Args) (w : World) : fit_calls (fetching a w) = [].
Proof. unfold fetching. now destruct (fromdate a). Qed.


Lemma handing_over_reads (a : Args) (w : World) (st : loop_state) :
  (fit_calls (handing_over a w st) = []
   \/ fit_calls (handing_over a w st) = [getvalue])
  /\ read_for_output (handing_over a w st) = true.
Proof.
  unfold handing_over.
  destruct (snd st) as [last_weight |]; [| now split; [left |]].
  destruct (no_upload a); [now split; [right |] |].
  rewrite upload_trainerroad_run, upload_garmin_run. unfold trace. cbn [fst].
  destruct (Py.truthy_str (trainerroad_username a));
    destruct (Py.truthy_str (garmin_username a));
    destruct (upload_file w); destruct (fromdate a);
    (split; [(now left) || (now right) | reflexivity]).
Qed.


Lemma loop_body_completes (height : option float) (st : loop_state) (g : Group) :
  height_in_range height = true \/ nonzero_weight g = false ->
  loop_body height st g = (group_events height g, inr (group_state st g)).
Proof.
  intros [Hh | Hz]; [now apply loop_body_in_range |].
  unfold group_events, group_state, record_calls. unfold nonzero_weight in Hz.
  destruct (get_weight g) as [weight |] eqn:Hw.
  - assert (Hb : bmi_value height weight = None)
      by (unfold bmi_value; now rewrite Hz, andb_false_r).
    rewrite Hb. apply loop_body_weight; [assumption |].
    now rewrite (bmi_of_zero_weight _ _ Hz).
  - now apply loop_body_weightless.
Qed.

Lemma for_groups_completes (height : option float) (groups : list Group) :
  loop_completes height groups = true ->
  forall st,
    for_groups height groups st
    = (flat_map (group_events height) groups, inr (fold_left group_state groups st)).
Proof.
  unfold loop_completes.
  induction groups as [| g gs IH]; intros Hc st; [reflexivity |].
  cbn [for_groups flat_map fold_left].
  assert (Hg : height_in_range height = true \/ nonzero_weight g = false).
  { destruct (height_in_range height); [now left | right].
    cbn [existsb orb] in Hc. now destruct (nonzero_weight g). }
  assert (Hgs : height_in_range height || negb (existsb nonzero_weight gs) = true).
  { destruct (height_in_range height); [reflexivity |].
    cbn [existsb orb] in Hc. destruct (nonzero_weight g); [discriminate |].
    exact Hc. }
  rewrite (loop_body_completes _ _ _ Hg). cbn [bind]. now rewrite (IH Hgs).
Qed.

(** The run of [sync] once non-empty groups are fetched and no iteration
    raises. *)
Lemma sync_completing_trace (a : Args) (w : World) (g : Group) (gs : list Group) :
  fetched a w = Some (g :: gs) ->
  loop_completes (getHeight w) (g :: gs) = true ->
  trace (sync a w)
  = fetching a w
    ++ [Log DEBUG GeneratingFit; NewFitEncoder; Fit write_file_info;
        Fit write_file_creator]
    ++ flat_map (group_events (getHeight w)) (g :: gs)
    ++ Fit finish
       :: handing_over a w (fold_left group_state (g :: gs) (None, None)).
Proof.
  intros Hf Hc. rewrite sync_trace, Hf, (for_groups_completes _ _ Hc).
  reflexivity.
Qed.

Lemma completing_calls (a : Args) (w : World) (g : Group) (gs : list Group) :
  fetched a w = Some (g :: gs) ->
  loop_completes (getHeight w) (g :: gs) = true ->
  fit_calls (trace (sync a w))
  = write_file_info :: write_file_creator
    :: flat_map (record_calls (getHeight w)) (g :: gs)
    ++ finish
       :: fit_calls
            (handing_over a w (fold_left group_state (g :: gs) (None, None))).
Proof.
  intros Hf Hc. rewrite (sync_completing_trace _ _ _ _ Hf Hc).
  rewrite !fit_calls_app, fit_calls_fetching, fit_calls_loop.
  reflexivity.
Qed.




(* ================================================================== *)
(** * One device-info record per weight-scale record (lines 116-150) *)

Lemma device_info_timestamps_app (l1 l2 : list fit_call) :
  device_info_timestamps (l1 ++ l2)
  = device_info_timestamps l1 ++ device_info_timestamps l2.
Proof. unfold device_info_timestamps. now rewrite flat_map_app. Qed.

Lemma device_info_timestamps_records (height : option float) (groups : list Group) :
  device_info_timestamps (flat_map (record_calls height) groups)
  = map get_datetime (filter weight_bearing groups).
Proof.
  induction groups as [| g gs IH]; simpl; [reflexivity |].
  rewrite device_info_timestamps_app, IH.
  unfold record_calls, weight_bearing.
  now destruct (get_weight g).
Qed.

Lemma run_loop (height : option float) (groups : list Group)
  (rest : list fit_call) :
  forall st,
    FitEncoder.run FitEncoder.Building
      (fit_calls (trace (for_groups height groups st)) ++ rest)
    = FitEncoder.run FitEncoder.Building rest.
Proof.
  induction groups as [| g gs IH]; intros st; [reflexivity |].
  cbn [for_groups]. rewrite trace_bind, fit_calls_app, <- app_assoc.
  destruct (get_weight g) as [weight |] eqn:Hg.
  - destruct (outcome (bmi_of height weight)) as [e | bmi] eqn:Hb.
    + now rewrite (loop_body_raises _ _ _ _ _ Hg Hb).
    + rewrite (loop_body_weight _ _ _ _ _ Hg Hb).
      unfold trace at 1, outcome at 1. cbn [fst snd fit_calls flat_map app].
      cbn [FitEncoder.run FitEncoder.step]. apply IH.
  - rewrite (loop_body_weightless _ _ _ Hg).
    unfold trace at 1, outcome at 1. cbn [fst snd].
    rewrite fit_calls_weightless_log. apply IH.
Qed.

(** C7, as the claim has it, fails: with the height [1e-200] and one
    weight-bearing group at the timestamp [100], the division of lines
    133-136 raises before [write_device_info] is called. *)
Lemma device_info_missing_when_bmi_raises :
  let a := {| withings_user := None; garmin_username := Some "g"%string;
              garmin_password := None; trainerroad_username := None;
              trainerroad_password := None; fromdate := None; todate := 0;
              no_upload := false; verbose := false |} in
  let w := {| getLastSync := 0; getHeight := Some 1e-200%float;
              getMeasurements := fun _ _ =>
                Some [mk_group 100 (Some 70%float) None];
              trainerroad_weight := 70; upload_file := true |} in
  map get_datetime (filter weight_bearing (groups_of (fetched a w))) = [100]
  /\ device_info_timestamps (fit_calls (trace (sync a w))) = []
  /\ outcome (sync a w) = inl Py.ZeroDivisionError.
Proof. repeat split. Qed.

(** C7, amended.  In a run in which the BMI computation raises for no
    group (the height is [None] or zero, or its square is finite and not
    zero, or no group has a non-zero weight), [write_device_info] is called
    once for each weight-bearing group, with that group's timestamp and in
    input order, and for no other group.  In every run the encoder's
    lifecycle, as the specification gives it, accepts the whole sequence of
    calls: writing the device information again is never an invalid-state
    error. *)
Theorem device_info_once_per_record :
  forall (a : Args) (w : World),
    (loop_completes (getHeight w) (groups_of (fetched a w)) = true ->
     device_info_timestamps (fit_calls (trace (sync a w)))
     = map get_datetime (filter weight_bearing (groups_of (fetched a w))))
    /\ exists s,
        FitEncoder.run FitEncoder.Empty (fit_calls (trace (sync a w))) = inr s.
Proof.
  intros a w. split.
  - intros Hc. destruct (fetched a w) as [[| g gs] |] eqn:Hf.
    + now rewrite sync_trace, Hf, fit_calls_app, fit_calls_fetching.
    + rewrite (completing_calls _ _ _ _ Hf Hc). cbn [groups_of].
      transitivity
        (device_info_timestamps
           (flat_map (record_calls (getHeight w)) (g :: gs)
            ++ finish
               :: fit_calls
                    (handing_over a w
                       (fold_left group_state (g :: gs) (None, None)))));
        [reflexivity |].
      rewrite device_info_timestamps_app, device_info_timestamps_records.
      destruct (handing_over_reads a w
                  (fold_left group_state (g :: gs) (None, None)))
        as [[-> | ->] _]; cbn; now rewrite app_nil_r.
    + now rewrite sync_trace, Hf, fit_calls_app, fit_calls_fetching.
  - rewrite sync_trace, fit_calls_app, fit_calls_fetching, app_nil_l.
    destruct (fetched a w) as [[| g gs] |];
      [now exists FitEncoder.Empty | | now exists FitEncoder.Empty].
    rewrite !fit_calls_app.
    change (fit_calls [Log DEBUG GeneratingFit; NewFitEncoder;
                       Fit write_file_info; Fit write_file_creator])
      with [write_file_info; write_file_creator].
    cbn [app FitEncoder.run FitEncoder.step]. rewrite run_loop.
    destruct (outcome (for_groups (getHeight w) (g :: gs) (None, None)))
      as [e | st]; [now exists FitEncoder.Building |].
    change (fit_calls (Fit finish :: handing_over a w st))
      with (finish :: fit_calls (handing_over a w st)).
    destruct (handing_over_reads a w st) as [[-> | ->] _];
      now exists FitEncoder.Finalized.
Qed.

Lemma device_info_once_per_record_witness :
  let a := {| withings_user := None; garmin_username := Some "g"%string;
              garmin_password := None; trainerroad_username := None;
              trainerroad_password := None; fromdate := None; todate := 0;
              no_upload := false; verbose := false |} in
  let w := {| getLastSync := 0; getHeight := Some 1.75%float;
              getMeasurements := fun _ _ =>
                Some [ mk_group 100 (Some 70%float) (Some 35%float);
                       mk_group 150 None None;
                       mk_group 200 (Some 71%float) None ];
              trainerroad_weight := 70; upload_file := true |} in
  device_info_timestamps (fit_calls (trace (sync a w))) = [100; 200].
Proof.
  intros a w. apply (proj1 (device_info_once_per_record a w)). reflexivity.
Defined.

(* ================================================================== *)
(** * The bookmark of the last synchronisation (lines 90-93 and 197-207) *)

Lemma In_SetLastSync (t : list event) :
  In SetLastSync t <-> existsb is_SetLastSync t = true.
Proof.
  rewrite existsb_exists. split.
  - intros H. now exists SetLastSync.
  - intros (e & He & Hb). now destruct e.
Qed.

Lemma loop_events_no_bookmark (t : list event) :
  forallb loop_event t = true -> existsb is_SetLastSync t = false.
Proof.
  induction t as [| e t IH]; simpl; [reflexivity |].
  intros H. apply andb_prop in H as [He Ht]. rewrite (IH Ht).
  now destruct e.
Qed.

Lemma fetching_no_bookmark (a : Args) (w : World) :
  existsb is_SetLastSync (fetching a w) = false.
Proof. unfold fetching. now destruct (fromdate a). Qed.

Lemma generate_fit_no_bookmark (height : option float) (groups : list Group) :
  existsb is_SetLastSync (trace (generate_fit height groups)) = false.
Proof.
  rewrite generate_fit_run. unfold trace at 1. cbn [fst].
  rewrite !existsb_app,
    (loop_events_no_bookmark _ (for_groups_loop_events height groups (None, None))).
  now destruct (outcome (for_groups height groups (None, None))).
Qed.

(** C10.  A run of [sync] calls [withings.setLastSync] only when the caller
    gave no [fromdate], a Garmin user name is set, the run is not in
    no-upload mode, it went as far as the upload, and the upload returned a
    true result; such a run ends with [None], not with [-1].  In every other
    run [setLastSync] is not called. *)
Theorem bookmark_only_after_upload :
  forall (a : Args) (w : World),
    In SetLastSync (trace (sync a w)) ->
    fromdate a = None
    /\ Py.truthy_str (garmin_username a) = true
    /\ no_upload a = false
    /\ upload_file w = true
    /\ In GarminUpload (trace (sync a w))
    /\ outcome (sync a w) = inr None.
Proof.
  intros a w Hin. apply In_SetLastSync in Hin.
  rewrite sync_run in *.
  destruct (fetched a w) as [[| g gs] |];
    [ unfold trace in Hin; cbn [fst] in Hin;
      now rewrite existsb_app, fetching_no_bookmark in Hin
    | | unfold trace in Hin; cbn [fst] in Hin;
      now rewrite existsb_app, fetching_no_bookmark in Hin ].
  rewrite deliver_run in *.
  pose proof (generate_fit_no_bookmark (getHeight w) (g :: gs)) as Hgen.
  unfold trace, outcome in *. cbn [fst snd] in *.
  rewrite !existsb_app, fetching_no_bookmark, Hgen in Hin. cbn [orb] in Hin.
  destruct (snd (generate_fit (getHeight w) (g :: gs))) as [e | st];
    [discriminate |].
  unfold handing_over in *.
  destruct (snd st) as [last_weight |]; [| discriminate].
  destruct (no_upload a); [discriminate |].
  rewrite upload_trainerroad_run, upload_garmin_run in *.
  unfold trace in *. cbn [fst] in *.
  rewrite existsb_app in Hin.
  destruct (Py.truthy_str (trainerroad_username a));
    (destruct (Py.truthy_str (garmin_username a)); [| discriminate];
     destruct (upload_file w); [| discriminate];
     destruct (fromdate a); [discriminate |];
     repeat split;
     apply in_or_app; right; apply in_or_app; right; apply in_or_app; right;
     simpl; tauto).
Qed.

Lemma bookmark_only_after_upload_witness :
  let a := {| withings_user := None; garmin_username := Some "g"%string;
              garmin_password := None; trainerroad_username := None;
              trainerroad_password := None; fromdate := None; todate := 0;
              no_upload := false; verbose := false |} in
  let w := {| getLastSync := 0; getHeight := Some 1.75%float;
              getMeasurements := fun _ _ =>
                Some [mk_group 100 (Some 70%float) (Some 35%float)];
              trainerroad_weight := 70; upload_file := true |} in
  fromdate a = None
  /\ Py.truthy_str (garmin_username a) = true
  /\ no_upload a = false
  /\ upload_file w = true
  /\ In GarminUpload (trace (sync a w))
  /\ outcome (sync a w) = inr None.
Proof.
  intros a w. apply (bookmark_only_after_upload a w).
  apply In_SetLastSync. reflexivity.
Defined.

(* ================================================================== *)
(** * Further properties of [sync] *)

(** ** Shared lemmas *)

Lemma forallb_excludes (P Q : event -> bool) (t : list event) :
  (forall e, Q e = true -> P e = false) ->
  forallb Q t = true -> existsb P t = false.
Proof.
  intros HPQ. induction t as [| e t IH]; simpl; [reflexivity |].
  intros H. apply andb_prop in H as [He Ht].
  now rewrite (HPQ e He), (IH Ht).
Qed.

Lemma fetching_excludes (P : event -> bool) (a : Args) (w : World) :
  P GetLastSync = false -> P GetHeight = false ->
  (forall b, P (BasicConfig b) = false) ->
  (forall u, P (NewWithingsAccount u) = false) ->
  (forall l m, P (Log l m) = false) ->
  (forall s e, P (GetMeasurements s e) = false) ->
  existsb P (fetching a w) = false.
Proof.
  intros H1 H2 H3 H4 H5 H6. unfold fetching.
  destruct (fromdate a); simpl; now rewrite ?H1, ?H2, ?H3, ?H4, ?H5, ?H6.
Qed.





(** ** The result of a run (lines 103-105, 168-174 and 209) *)



(** ** Exceptions of the BMI computation (lines 133-136) *)





Lemma sync_outcome (a : Args) (w : World) :
  outcome (sync a w)
  = match fetched a w with
    | Some (g :: gs) =>
        match outcome (for_groups (getHeight w) (g :: gs) (None, None)) with
        | inl e => inl e
        | inr st =>
            match snd st with
            | None => inr (Some (-1))
            | Some _ => if no_upload a then inr (Some 0) else inr None
            end
        end
    | _ => inr (Some (-1))
    end.
Proof.
  rewrite sync_run. unfold outcome at 1. cbn [snd].
  destruct (fetched a w) as [[| g gs] |]; [reflexivity | | reflexivity].
  rewrite deliver_run, generate_fit_run. reflexivity.
Qed.



(** ** The encoder calls of any run (lines 109-166, 173 and 201) *)

Lemma records_then_end_loop (height : option float) (groups : list Group)
  (tail : list fit_call) :
  forall st,
    records_then_end (fit_calls (trace (for_groups height groups st)) ++ tail)
    = records_then_end tail.
Proof.
  induction groups as [| g gs IH]; intros st; [reflexivity |].
  cbn [for_groups]. rewrite trace_bind, fit_calls_app, <- app_assoc.
  destruct (get_weight g) as [weight |] eqn:Hg.
  - destruct (outcome (bmi_of height weight)) as [e | bmi] eqn:Hb.
    + now rewrite (loop_body_raises _ _ _ _ _ Hg Hb).
    + rewrite (loop_body_weight _ _ _ _ _ Hg Hb).
      unfold trace at 1, outcome at 1. cbn [fst snd fit_calls flat_map app].
      cbn [records_then_end]. rewrite Z.eqb_refl. apply IH.
  - rewrite (loop_body_weightless _ _ _ Hg).
    unfold trace at 1, outcome at 1. cbn [fst snd].
    rewrite fit_calls_weightless_log. apply IH.
Qed.

(** X3.  In every run of [sync], also one that an exception aborts, the
    encoder is either not used at all or receives [write_file_info] and
    [write_file_creator] first, then only pairs of a [write_device_info] and
    a [write_weight_scale] with the same timestamp, and after them nothing,
    or [finish], or [finish] and one [getvalue]: [getvalue] is never called
    on an encoder that was not finished, and nothing is written after
    [finish]. *)
Theorem encoder_calls_well_sequenced :
  forall (a : Args) (w : World),
    well_sequenced (fit_calls (trace (sync a w))) = true.
Proof.
  intros a w. rewrite sync_trace, fit_calls_app, fit_calls_fetching.
  destruct (fetched a w) as [[| g gs] |]; [reflexivity | | reflexivity].
  rewrite !fit_calls_app.
  change (fit_calls [Log DEBUG GeneratingFit; NewFitEncoder;
                     Fit write_file_info; Fit write_file_creator])
    with [write_file_info; write_file_creator].
  cbn [app well_sequenced]. rewrite records_then_end_loop.
  destruct (outcome (for_groups (getHeight w) (g :: gs) (None, None)))
    as [e | st]; [reflexivity |].
  change (fit_calls (Fit finish :: handing_over a w st))
    with (finish :: fit_calls (handing_over a w st)).
  destruct (handing_over_reads a w st) as [[-> | ->] _]; reflexivity.
Qed.

(** ** The last weight of a stream with weightless groups (lines 116-164) *)

Lemma fold_group_state_filter (groups : list Group) :
  forall st,
    fold_left group_state groups st
    = fold_left group_state (filter weight_bearing groups) st.
Proof.
  induction groups as [| g gs IH]; intros st; simpl; [reflexivity |].
  unfold weight_bearing at 1, group_state at 2.
  destruct (get_weight g) as [weight |] eqn:Hg; simpl.
  - unfold group_state at 3. rewrite Hg. apply IH.
  - apply IH.
Qed.

Lemma filter_weight_bearing_none (groups : list Group) :
  filter weight_bearing groups = [] -> existsb weight_bearing groups = false.
Proof.
  induction groups as [| g gs IH]; simpl; [reflexivity |].
  destruct (weight_bearing g); [discriminate | assumption].
Qed.

(** X4.  Whatever weightless groups the stream holds, and whatever their
    timestamps, the loop ends with [last_dt] and [last_weight] both [None]
    when no group carries a weight, and otherwise with those of the first
    group of greatest timestamp among the weight-bearing ones: a weightless
    group never becomes, nor hides, the last weight. *)
Theorem last_weight_among_weight_bearing :
  forall (height : option float) (groups : list Group),
    height_in_range height = true ->
    (existsb weight_bearing groups = false
     /\ outcome (for_groups height groups (None, None)) = inr (None, None))
    \/ (exists g weight,
          outcome (for_groups height groups (None, None))
          = inr (Some (get_datetime g), Some weight)
          /\ get_weight g = Some weight
          /\ first_greatest g (filter weight_bearing groups)).
Proof.
  intros height groups Hh.
  rewrite (for_groups_in_range _ _ Hh). unfold outcome. cbn [snd].
  rewrite fold_group_state_filter.
  assert (Hall : forall g, In g (filter weight_bearing groups) ->
                           get_weight g <> None).
  { intros g Hg. apply filter_In in Hg as [_ Hg]. unfold weight_bearing in Hg.
    now destruct (get_weight g). }
  destruct (filter weight_bearing groups) as [| x xs] eqn:Hf.
  - left. split; [now apply filter_weight_bearing_none | reflexivity].
  - right. cbn [fold_left].
    destruct (get_weight x) as [wx |] eqn:Hx;
      [| now destruct (Hall x (or_introl eq_refl))].
    destruct (fold_holds_first_greatest xs
                (fun g Hg => Hall g (or_intror Hg)) _ [x]
                (holds_first_greatest_start x wx Hx))
      as (g & weight & -> & Hg & Hfirst).
    now exists g, weight.
Qed.

Lemma last_weight_among_weight_bearing_witness :
  (existsb weight_bearing
     [mk_group 100 (Some 70%float) None; mk_group 300 None None] = false
   /\ outcome (for_groups (Some 1.75%float)
                 [mk_group 100 (Some 70%float) None; mk_group 300 None None]
                 (None, None)) = inr (None, None))
  \/ (exists g weight,
        outcome (for_groups (Some 1.75%float)
                   [mk_group 100 (Some 70%float) None; mk_group 300 None None]
                   (None, None))
        = inr (Some (get_datetime g), Some weight)
        /\ get_weight g = Some weight
        /\ first_greatest g
             (filter weight_bearing
                [mk_group 100 (Some 70%float) None; mk_group 300 None None])).
Proof. apply last_weight_among_weight_bearing. reflexivity. Defined.

(** ** The two modes of delivery (lines 172-209) *)

Lemma loop_events_exclude (P : event -> bool) (height : option float)
  (groups : list Group) (st : loop_state) :
  (forall l m, P (Log l m) = false) ->
  (forall c, P (Fit c) = false) ->
  existsb P (trace (for_groups height groups st)) = false.
Proof.
  intros Hlog Hfit.
  apply (forallb_excludes P loop_event); [| apply for_groups_loop_events].
  intros e He.
  destruct e as [| | | | | | | c | | | | | | | | |]; try discriminate; auto.
Qed.


(** ** The date range and the bookmark (lines 90-100 and 204-205) *)




(** ** The update of TrainerRoad (lines 176-194) *)




(** ** A failed upload (lines 201-207) *)

Lemma for_groups_loop_records (height : option float) (groups : list Group) :
  forall st, forallb loop_record (trace (for_groups height groups st)) = true.
Proof.
  induction groups as [| g gs IH]; intros st; [reflexivity |].
  cbn [for_groups]. rewrite trace_bind, forallb_app.
  destruct (get_weight g) as [weight |] eqn:Hg.
  - destruct (outcome (bmi_of height weight)) as [e | bmi] eqn:Hb.
    + now rewrite (loop_body_raises _ _ _ _ _ Hg Hb).
    + rewrite (loop_body_weight _ _ _ _ _ Hg Hb).
      unfold trace at 1, outcome at 1. cbn [fst snd forallb loop_record andb].
      apply IH.
  - rewrite (loop_body_weightless _ _ _ Hg).
    unfold trace at 1, outcome at 1. cbn [fst snd]. rewrite IH, andb_true_r.
    unfold weightless_log. cbn [forallb loop_record andb].
    induction (get_raw_data g) as [| d ds IHd]; simpl; auto.
Qed.

Lemma loop_reports_no_upload (height : option float) (groups : list Group)
  (st : loop_state) :
  existsb reports_upload (trace (for_groups height groups st)) = false.
Proof.
  apply (forallb_excludes reports_upload loop_record);
    [| apply for_groups_loop_records].
  intros e He.
  destruct e as [| | | | | l m | | c | | | | | | | | |]; try discriminate; auto.
  destruct l, m; try discriminate; reflexivity.
Qed.

Lemma fetching_reports_no_upload (a : Args) (w : World) :
  existsb reports_upload (fetching a w) = false.
Proof. unfold fetching. now destruct (fromdate a). Qed.

Lemma ends_with_app (l1 l2 : list event) (x : event) :
  (exists before, l2 = before ++ [x]) ->
  exists before, l1 ++ l2 = before ++ [x].
Proof. intros (b & ->). exists (l1 ++ b). now rewrite app_assoc. Qed.

Lemma ends_with_cons (y : event) (l : list event) (x : event) :
  (exists before, l = before ++ [x]) ->
  exists before, y :: l = before ++ [x].
Proof. intros (b & ->). now exists (y :: b). Qed.

(** X8.  What [garmin.upload_file] returns does not change the result of
    [sync].  When it returns a false value, the bookmark is not written and
    no success is logged, and the upload, if the run came to it, is the last
    thing the run does: the failure is neither logged nor returned. *)
Theorem failed_upload_silent :
  forall (a : Args) (w : World),
    (forall r, outcome (sync a (with_upload_file w r)) = outcome (sync a w))
    /\ (upload_file w = false ->
        existsb reports_upload (trace (sync a w)) = false
        /\ (In GarminUpload (trace (sync a w)) ->
            exists before, trace (sync a w) = before ++ [GarminUpload])).
Proof.
  intros a w. split; [| intros Hup; split].
  - intros r. rewrite !sync_outcome. reflexivity.
  - rewrite sync_trace, existsb_app, fetching_reports_no_upload.
    destruct (fetched a w) as [[| g gs] |]; [reflexivity | | reflexivity].
    rewrite !existsb_app, loop_reports_no_upload.
    destruct (outcome (for_groups (getHeight w) (g :: gs) (None, None)))
      as [e | st]; [reflexivity |].
    unfold handing_over. destruct (snd st) as [last_weight |]; [| reflexivity].
    destruct (no_upload a); [reflexivity |].
    rewrite upload_trainerroad_run, upload_garmin_run, Hup. unfold trace.
    cbn [fst].
    destruct (Py.truthy_str (trainerroad_username a));
      destruct (Py.truthy_str (garmin_username a)); reflexivity.
  - intros Hin.
    assert (Hg : existsb garmin_event (trace (sync a w)) = true).
    { apply existsb_exists. now exists GarminUpload. }
    clear Hin. rewrite sync_trace in *.
    rewrite existsb_app, fetching_excludes in Hg by reflexivity.
    apply ends_with_app.
    destruct (fetched a w) as [[| g gs] |]; [discriminate | | discriminate].
    rewrite !existsb_app, loop_events_exclude in Hg by reflexivity.
    apply ends_with_app, ends_with_app.
    destruct (outcome (for_groups (getHeight w) (g :: gs) (None, None)))
      as [e | st]; [discriminate |].
    apply ends_with_cons.
    unfold handing_over in *. destruct (snd st) as [last_weight |];
      [| discriminate].
    destruct (no_upload a); [discriminate |].
    apply ends_with_app.
    rewrite upload_trainerroad_run, upload_garmin_run, Hup in *.
    unfold trace in *. cbn [fst] in *.
    destruct (Py.truthy_str (garmin_username a)).
    + now exists [ NewGarminConnect;
                   GarminLogin (garmin_username a) (garmin_password a);
                   Log DEBUG AttemptingUpload; Fit getvalue ].
    + now destruct (Py.truthy_str (trainerroad_username a)).
Qed.

Lemma failed_upload_silent_witness :
  let a := {| withings_user := None; garmin_username := Some "g"%string;
              garmin_password := None; trainerroad_username := None;
              trainerroad_password := None; fromdate := None; todate := 0;
              no_upload := false; verbose := false |} in
  let w := {| getLastSync := 0; getHeight := Some 1.75%float;
              getMeasurements := fun _ _ =>
                Some [mk_group 100 (Some 70%float) None];
              trainerroad_weight := 70; upload_file := false |} in
  existsb reports_upload (trace (sync a w)) = false
  /\ exists before, trace (sync a w) = before ++ [GarminUpload].
Proof.
  intros a w.
  destruct (proj2 (failed_upload_silent a w) eq_refl) as [Hrep Hlast].
  split; [exact Hrep |]. apply Hlast.
  repeat (try (left; reflexivity); right).
Defined.

(** ** Streams from which no file comes (lines 103-111 and 166-170) *)

Lemma fit_calls_weightless_logs (groups : list Group) :
  fit_calls (flat_map weightless_log groups) = [].
Proof.
  induction groups as [| g gs IH]; [reflexivity |].
  cbn [flat_map]. now rewrite fit_calls_app, fit_calls_weightless_log, IH.
Qed.

(** X9.  When Withings gives [None] or an empty list, the run is the fetch
    and one error line: no encoder is created.  When it gives a non-empty
    list, an encoder is created; if no group of the list carries a weight,
    the encoder still receives [write_file_info], [write_file_creator] and
    [finish], and the file it holds is dropped unread. *)
Theorem encoder_created_for_fetched_groups :
  forall (a : Args) (w : World),
    match fetched a w with
    | Some (g :: gs) =>
        In NewFitEncoder (trace (sync a w))
        /\ ((forall x, In x (g :: gs) -> get_weight x = None) ->
            fit_calls (trace (sync a w))
            = [write_file_info; write_file_creator; finish])
    | _ => trace (sync a w) = fetching a w ++ [Log ERROR NoMeasurements]
    end.
Proof.
  intros a w. rewrite sync_trace.
  destruct (fetched a w) as [[| g gs] |]; [reflexivity | | reflexivity].
  split.
  - apply in_or_app. right. right. now left.
  - intros Hall. rewrite (for_groups_weightless _ _ Hall).
    unfold trace, outcome. cbn [fst snd handing_over].
    now rewrite !fit_calls_app, fit_calls_fetching, fit_calls_weightless_logs.
Qed.

Lemma encoder_created_for_fetched_groups_witness :
  let a := {| withings_user := None; garmin_username := Some "g"%string;
              garmin_password := None; trainerroad_username := None;
              trainerroad_password := None; fromdate := None; todate := 0;
              no_upload := false; verbose := false |} in
  let w := {| getLastSync := 0; getHeight := Some 1.75%float;
              getMeasurements := fun _ _ =>
                Some [mk_group 100 None (Some 35%float)];
              trainerroad_weight := 70; upload_file := true |} in
  fit_calls (trace (sync a w)) = [write_file_info; write_file_creator; finish].
Proof.
  intros a w.
  apply (proj2 (encoder_created_for_fetched_groups a w)).
  intros x [<- | []]. reflexivity.
Defined.

(** ** The file and the mode of delivery (lines 107-166 and 172-209) *)

(** X10.  What the encoder is given to build the file does not depend on
    how the file is delivered: two runs with the same date range and the
    same answers of Withings make the same calls up to [finish], whatever
    the no-upload flag, the verbosity and the user names and passwords
    are. *)
Theorem file_independent_of_delivery :
  forall (a a' : Args) (w : World),
    fromdate a = fromdate a' ->
    todate a = todate a' ->
    filter builds_file (fit_calls (trace (sync a w)))
    = filter builds_file (fit_calls (trace (sync a' w))).
Proof.
  intros a a' w Hfrom Hto.
  assert (Hf : fetched a w = fetched a' w)
    by (unfold fetched; now rewrite Hfrom, Hto).
  rewrite !sync_trace, !fit_calls_app, !fit_calls_fetching, Hf, !app_nil_l.
  destruct (fetched a' w) as [[| g gs] |]; [reflexivity | | reflexivity].
  rewrite !fit_calls_app, !filter_app. f_equal. f_equal.
  destruct (outcome (for_groups (getHeight w) (g :: gs) (None, None)))
    as [e | st]; [reflexivity |].
  change (fit_calls (Fit finish :: handing_over a w st))
    with (finish :: fit_calls (handing_over a w st)).
  change (fit_calls (Fit finish :: handing_over a' w st))
    with (finish :: fit_calls (handing_over a' w st)).
  destruct (handing_over_reads a w st) as [[-> | ->] _];
    destruct (handing_over_reads a' w st) as [[-> | ->] _]; reflexivity.
Qed.

Lemma file_independent_of_delivery_witness :
  let w := {| getLastSync := 0; getHeight := Some 1.75%float;
              getMeasurements := fun _ _ =>
                Some [mk_group 100 (Some 70%float) (Some 35%float)];
              trainerroad_weight := 70; upload_file := true |} in
  filter builds_file
    (fit_calls (trace (sync
       {| withings_user := None; garmin_username := Some "g"%string;
          garmin_password := None; trainerroad_username := None;
          trainerroad_password := None; fromdate := None; todate := 0;
          no_upload := false; verbose := false |} w)))
  = filter builds_file
      (fit_calls (trace (sync
         {| withings_user := None; garmin_username := None;
            garmin_password := None; trainerroad_username := None;
            trainerroad_password := None; fromdate := None; todate := 0;
            no_upload := true; verbose := true |} w))).
Proof. intros w. apply file_independent_of_delivery; reflexivity. Defined.
